(** * potify: volume of a pot from its two diameters and its height

    A shallow embedding of [assets/pyscript/potify.py] and the properties of
    its three functions [compute_angles], [v_cone] and [v_pot].

    Number model.  A float is taken as a real number: rounding is outside
    the model, so every equation below is an equation of exact arithmetic.
    What the model keeps of floating point is this:
    - the run-time type of the arguments, which the program never checks:
      [height / width] raises [ZeroDivisionError] when both operands are
      Python numbers and gives [inf] or [nan] when one is a NumPy scalar;
    - a division by a NumPy scalar equal to zero gives [inf] or [nan], which
      every later [+], [-], [*] and [/] of the program propagates;
    - [np.tan] returns a float for every float.  At a pole of the tangent
      that float is beyond [1e15], and a length divided by it vanishes to
      rounding.  At a multiple of [pi] other than zero it is a residue of
      the rounding of [pi], of order [1e-16], with no counterpart in exact
      arithmetic: such a call is outside the model, and no theorem says
      what it returns. *)

From Stdlib Require Import Reals Lra Psatz.

Open Scope R_scope.

(** ** Values *)

(** The run-time type of the three arguments: all of them Python [float]
    or [int], as the annotations say, or at least one of them a
    [numpy.float64] scalar. *)
Inductive scalar : Type :=
| PyFloat
| NpFloat64.

(** The value of [height / width]: a number, or [inf] or [-inf]. *)
Inductive quotient : Type :=
| Finite (q : R)
| PlusInf
| MinusInf.

(** The float [np.tan] returns: the tangent, a float of huge magnitude at
    a pole, or a rounding residue at a non-zero multiple of [pi]. *)
Inductive tangent : Type :=
| Tan (t : R)
| Huge
| Residue.

(** ** Outcomes of a computation *)

Inductive exn : Type :=
| ZeroDivisionError.

(** [NonFinite]: the value is [inf] or [nan].  [OutsideModel]: the value
    depends on the rounding of [pi]. *)
Inductive outcome (A : Type) : Type :=
| Return (a : A)
| NonFinite
| Raise (e : exn)
| OutsideModel.

Arguments Return {A} a.
Arguments NonFinite {A}.
Arguments Raise {A} e.
Arguments OutsideModel {A}.

Definition bind {A B : Type} (m : outcome A) (k : A -> outcome B) : outcome B :=
  match m with
  | Return a => k a
  | NonFinite => NonFinite
  | Raise e => Raise e
  | OutsideModel => OutsideModel
  end.

Definition omap {A B : Type} (f : A -> B) (m : outcome A) : outcome B :=
  bind m (fun a => Return (f a)).

Notation "x <- m ;; k" := (bind m (fun x => k))
  (at level 61, m at next level, right associativity).
Notation "' pat <- m ;; k" := (bind m (fun x => match x with pat => k end))
  (at level 61, pat pattern, m at next level, right associativity).

(** [a / b] on the arguments of the program.  By zero, Python's division
    raises; NumPy's gives [nan] for [0 / 0] and an infinity of the sign of
    [a] otherwise (the zero is [+0.0], the half of [x - x]). *)
Definition true_div (ty : scalar) (a b : R) : outcome quotient :=
  if Req_dec_T b 0 then
    match ty with
    | PyFloat => Raise ZeroDivisionError
    | NpFloat64 =>
        if Req_dec_T a 0 then NonFinite
        else if Rlt_dec 0 a then Return PlusInf
        else Return MinusInf
    end
  else Return (Finite (a / b)).

(** [np.arctan], with its values [pi/2] and [-pi/2] at the infinities. *)
Definition np_arctan (x : quotient) : R :=
  match x with
  | Finite q => atan q
  | PlusInf => PI / 2
  | MinusInf => - (PI / 2)
  end.

(** [np.tan]. *)
Definition np_tan (x : R) : tangent :=
  if Req_dec_T (cos x) 0 then Huge
  else if Req_dec_T (sin x) 0 then
    if Req_dec_T x 0 then Tan 0 else Residue
  else Tan (tan x).

(** [a / t] where [t] is the NumPy scalar [np.tan] returned. *)
Definition np_div (a : R) (t : tangent) : outcome R :=
  match t with
  | Tan t => if Req_dec_T t 0 then NonFinite else Return (a / t)
  | Huge => Return 0
  | Residue => OutsideModel
  end.

(** ** The program *)

(** [RAD_180 = np.pi / 2] *)
Definition RAD_180 : R := PI / 2.

Definition compute_angles (ty : scalar) (diameter_top diameter_base height : R)
  : outcome (R * R) :=
  let width := (diameter_top - diameter_base) / 2 in
  tan_beta <- true_div ty height width ;;
  let beta := np_arctan tan_beta in
  let alpha := RAD_180 - 2 * beta in
  Return (alpha, beta).

Definition v_cone (ray height : R) : R :=
  (PI * ray ^ 2 * height) / 3.

Definition v_pot (ty : scalar) (diameter_base diameter_top height : R)
  : outcome R :=
  '(alpha, _) <- compute_angles ty diameter_top diameter_base height ;;
  let tan_alpha := np_tan alpha in
  h_small_cone <- np_div (diameter_base / 2) tan_alpha ;;
  let h_big_cone := height + h_small_cone in
  let v_small_cone := v_cone (diameter_base / 2) h_small_cone in
  let v_big_cone := v_cone (diameter_top / 2) h_big_cone in
  Return (v_big_cone - v_small_cone).

(** ** The steps of the frustum volume as the specification words them *)




(** ** Closed forms used by the proofs

    With [w = (diameter_top - diameter_base) / 2] the program's
    [tan alpha] is [(w^2 - height^2) / (2 * height * w)], which gives the
    height of the small cone without any trigonometric function. *)

Definition half_width (diameter_base diameter_top : R) : R :=
  (diameter_top - diameter_base) / 2.

Definition h_small_closed (diameter_base diameter_top height : R) : R :=
  let w := half_width diameter_base diameter_top in
  (diameter_base / 2) * (2 * height * w) / (w * w - height * height).

Definition v_pot_closed (diameter_base diameter_top height : R) : R :=
  let h_small_cone := h_small_closed diameter_base diameter_top height in
  v_cone (diameter_top / 2) (height + h_small_cone)
  - v_cone (diameter_base / 2) h_small_cone.

(** The volume of a cylinder. *)
Definition v_cylinder (diameter height : R) : R :=
  PI * (diameter / 2) ^ 2 * height.


(** ** Elementary facts on the outcome operations *)

Lemma true_div_nonzero (ty : scalar) (a b : R) :
  b <> 0 -> true_div ty a b = Return (Finite (a / b)).
Proof.
  intros Hb. unfold true_div.
  destruct (Req_dec_T b 0) as [E | _]; [contradiction | reflexivity].
Qed.

Lemma true_div_zero_python (a : R) :
  true_div PyFloat a 0 = Raise ZeroDivisionError.
Proof.
  unfold true_div.
  destruct (Req_dec_T 0 0) as [_ | N]; [reflexivity | now destruct N].
Qed.

Lemma true_div_zero_numpy (a : R) :
  true_div NpFloat64 a 0
  = if Req_dec_T a 0 then NonFinite
    else if Rlt_dec 0 a then Return PlusInf else Return MinusInf.
Proof.
  unfold true_div.
  destruct (Req_dec_T 0 0) as [_ | N]; [reflexivity | now destruct N].
Qed.

Lemma np_div_nonzero (a t : R) : t <> 0 -> np_div a (Tan t) = Return (a / t).
Proof.
  intros Ht. unfold np_div.
  destruct (Req_dec_T t 0) as [E | _]; [contradiction | reflexivity].
Qed.

Lemma np_div_zero (a : R) : np_div a (Tan 0) = NonFinite.
Proof.
  unfold np_div.
  destruct (Req_dec_T 0 0) as [_ | N]; [reflexivity | now destruct N].
Qed.

Lemma tan_nonzero_sin (x : R) : tan x <> 0 -> sin x <> 0.
Proof.
  intros Ht Hs. apply Ht. unfold tan. rewrite Hs. unfold Rdiv. apply Rmult_0_l.
Qed.

Lemma np_tan_regular (x : R) :
  cos x <> 0 -> tan x <> 0 -> np_tan x = Tan (tan x).
Proof.
  intros Hc Ht. unfold np_tan.
  destruct (Req_dec_T (cos x) 0) as [E | _]; [contradiction |].
  destruct (Req_dec_T (sin x) 0) as [E | _]; [| reflexivity].
  now apply tan_nonzero_sin in Ht.
Qed.

Lemma np_tan_pole (x : R) : cos x = 0 -> np_tan x = Huge.
Proof.
  intros Hx. unfold np_tan.
  destruct (Req_dec_T (cos x) 0) as [_ | N]; [reflexivity | contradiction].
Qed.

Lemma np_tan_zero : np_tan 0 = Tan 0.
Proof.
  unfold np_tan. rewrite cos_0, sin_0.
  destruct (Req_dec_T 1 0) as [E | _]; [lra |].
  destruct (Req_dec_T 0 0) as [_ | N]; [reflexivity | now destruct N].
Qed.

Lemma np_tan_residue (x : R) :
  cos x <> 0 -> sin x = 0 -> x <> 0 -> np_tan x = Residue.
Proof.
  intros Hc Hs Hx. unfold np_tan.
  destruct (Req_dec_T (cos x) 0) as [E | _]; [contradiction |].
  destruct (Req_dec_T (sin x) 0) as [_ | N]; [| contradiction].
  destruct (Req_dec_T x 0) as [E | _]; [contradiction | reflexivity].
Qed.

Lemma half_width_nonzero (diameter_top diameter_base : R) :
  diameter_top <> diameter_base -> (diameter_top - diameter_base) / 2 <> 0.
Proof. intros H E. apply H. lra. Qed.

(** ** compute_angles *)

Lemma compute_angles_defined (ty : scalar) (diameter_top diameter_base height : R) :
  diameter_top <> diameter_base ->
  compute_angles ty diameter_top diameter_base height
  = Return (PI / 2 - 2 * atan (height / ((diameter_top - diameter_base) / 2)),
            atan (height / ((diameter_top - diameter_base) / 2))).
Proof.
  intros Hd. unfold compute_angles.
  rewrite true_div_nonzero by now apply half_width_nonzero.
  reflexivity.
Qed.

(** C4.  When the two diameters differ, [compute_angles] returns
    [beta = arctan (height / half_width)] with
    [half_width = (diameter_top - diameter_base) / 2] and
    [alpha = pi/2 - 2 * beta]; the constant of the formula, [RAD_180], is
    [pi/2]. *)
Theorem compute_angles_formula (ty : scalar) (diameter_top diameter_base height : R) :
  diameter_top <> diameter_base ->
  let half_width := (diameter_top - diameter_base) / 2 in
  let beta := atan (height / half_width) in
  let alpha := PI / 2 - 2 * beta in
  compute_angles ty diameter_top diameter_base height = Return (alpha, beta)
  /\ RAD_180 = PI / 2.
Proof.
  intros Hd half_width beta alpha. split; [| reflexivity].
  now apply compute_angles_defined.
Qed.

Lemma compute_angles_formula_witness :
  19 <> 11 /\
  compute_angles PyFloat 19 11 18
  = Return (PI / 2 - 2 * atan (18 / ((19 - 11) / 2)), atan (18 / ((19 - 11) / 2))).
Proof.
  split; [lra |]. apply (compute_angles_formula PyFloat 19 11 18). lra.
Defined.

(** ** v_cone *)

(** C8.  [v_cone] is [(pi * radius^2 * height) / 3], and it is non-negative
    when the radius and the height are. *)
Theorem v_cone_formula_nonneg (radius height : R) :
  v_cone radius height = (PI * (radius * radius) * height) / 3
  /\ (0 <= radius -> 0 <= height -> 0 <= v_cone radius height).
Proof.
  split.
  - unfold v_cone. field.
  - intros Hr Hh. unfold v_cone.
    pose proof PI_RGT_0 as Hpi.
    assert (0 <= radius ^ 2) by nra.
    assert (0 <= PI * radius ^ 2) by nra.
    assert (0 <= PI * radius ^ 2 * height) by nra.
    lra.
Qed.

Lemma v_cone_formula_nonneg_witness :
  v_cone 2 3 = (PI * (2 * 2) * 3) / 3 /\ 0 <= v_cone 2 3.
Proof.
  destruct (v_cone_formula_nonneg 2 3) as [E N].
  split; [exact E | apply N; lra].
Defined.

(** C10.  [v_cone] is odd in the height: negating the height negates the
    volume; the volume is negative for a non-zero radius and a negative
    height, and it is zero for the height zero. *)
Theorem v_cone_odd_in_height (radius height : R) :
  v_cone radius (- height) = - v_cone radius height
  /\ (radius <> 0 -> height < 0 -> v_cone radius height < 0)
  /\ v_cone radius 0 = 0.
Proof.
  split; [| split].
  - unfold v_cone. field.
  - intros Hr Hh. unfold v_cone.
    pose proof PI_RGT_0 as Hpi.
    assert (0 < radius ^ 2) by (simpl; nra).
    assert (0 < PI * radius ^ 2) by nra.
    assert (PI * radius ^ 2 * height < 0) by nra.
    lra.
  - unfold v_cone. field.
Qed.

Lemma v_cone_odd_in_height_witness :
  v_cone 1 (- -2) = - v_cone 1 (-2) /\ v_cone 1 (-2) < 0 /\ v_cone 1 0 = 0.
Proof.
  destruct (v_cone_odd_in_height 1 (-2)) as [E [N Z]].
  split; [exact E | split; [apply N; lra | exact Z]].
Defined.

(** ** The angle [alpha] without trigonometry *)

Lemma sqrt_one_plus_sq (t : R) : sqrt (1 + t²) * sqrt (1 + t²) = 1 + t * t.
Proof.
  rewrite sqrt_sqrt; [reflexivity |]. unfold Rsqr. nra.
Qed.

Lemma cos_alpha_atan (t : R) : cos (PI / 2 - 2 * atan t) = 2 * t / (1 + t * t).
Proof.
  rewrite cos_shift, sin_2a, sin_atan, cos_atan.
  pose proof (sqrt_one_plus_sq t) as Hs.
  assert (Hp : 0 < sqrt (1 + t²)) by (apply sqrt_lt_R0; unfold Rsqr; nra).
  assert (Hq : 1 + t * t <> 0) by nra.
  rewrite <- Hs. field. lra.
Qed.

Lemma sin_alpha_atan (t : R) :
  sin (PI / 2 - 2 * atan t) = (1 - t * t) / (1 + t * t).
Proof.
  rewrite sin_shift, cos_2a, sin_atan, cos_atan.
  pose proof (sqrt_one_plus_sq t) as Hs.
  assert (Hp : 0 < sqrt (1 + t²)) by (apply sqrt_lt_R0; unfold Rsqr; nra).
  assert (Hq : 1 + t * t <> 0) by nra.
  replace (1 / sqrt (1 + t²) * (1 / sqrt (1 + t²))
           - t / sqrt (1 + t²) * (t / sqrt (1 + t²)))
    with ((1 - t * t) / (sqrt (1 + t²) * sqrt (1 + t²))) by (field; lra).
  now rewrite Hs.
Qed.

Lemma tan_alpha_atan (t : R) :
  t <> 0 -> tan (PI / 2 - 2 * atan t) = (1 - t * t) / (2 * t).
Proof.
  intros Ht. unfold tan. rewrite sin_alpha_atan, cos_alpha_atan.
  assert (Hq : 1 + t * t <> 0) by nra.
  field. split; assumption.
Qed.

Lemma div_zero_num (a b : R) : b <> 0 -> a / b = 0 -> a = 0.
Proof.
  intros Hb E. replace a with (a / b * b) by (field; assumption).
  rewrite E. apply Rmult_0_l.
Qed.

Lemma cos_alpha_zero_iff (t : R) : cos (PI / 2 - 2 * atan t) = 0 <-> t = 0.
Proof.
  rewrite cos_alpha_atan.
  assert (Hq : 0 < 1 + t * t) by nra.
  split.
  - intros E. apply div_zero_num in E; lra.
  - intros ->. unfold Rdiv. now rewrite !Rmult_0_r, Rmult_0_l.
Qed.

Section Closed.
Variable ty : scalar.
Variables diameter_base diameter_top height : R.
Let w := half_width diameter_base diameter_top.
Hypothesis Hdiam : diameter_top <> diameter_base.

Lemma w_nonzero : w <> 0.
Proof. unfold w, half_width. now apply half_width_nonzero. Qed.

(** For the height zero the angle [alpha] is [pi/2], a pole of the
    tangent. *)
Lemma alpha_flat : height = 0 -> cos (PI / 2 - 2 * atan (height / w)) = 0.
Proof.
  intros Hh. apply cos_alpha_zero_iff. rewrite Hh. unfold Rdiv. apply Rmult_0_l.
Qed.

Lemma v_pot_flat :
  height = 0 ->
  v_pot ty diameter_base diameter_top height
  = Return (v_cone (diameter_top / 2) (height + 0)
            - v_cone (diameter_base / 2) 0).
Proof.
  intros Hh. unfold v_pot. rewrite compute_angles_defined by assumption.
  cbn [bind]. cbv zeta. fold (half_width diameter_base diameter_top). fold w.
  now rewrite (np_tan_pole _ (alpha_flat Hh)).
Qed.

Hypothesis Hheight : height <> 0.

Lemma tan_alpha_closed :
  tan (PI / 2 - 2 * atan (height / w))
  = (w * w - height * height) / (2 * height * w).
Proof.
  pose proof w_nonzero as Hw.
  assert (Ht : height / w <> 0).
  { intros E. apply Hheight. now apply (div_zero_num height w). }
  rewrite tan_alpha_atan by assumption. field. split; assumption.
Qed.

Lemma cos_alpha_nonzero : cos (PI / 2 - 2 * atan (height / w)) <> 0.
Proof.
  pose proof w_nonzero as Hw.
  intros E. apply (proj1 (cos_alpha_zero_iff _)) in E. apply Hheight.
  now apply (div_zero_num height w).
Qed.

(** Where the height equals the half width, [alpha] is zero and the
    division by its tangent has no finite value. *)
Lemma alpha_level : height = w -> PI / 2 - 2 * atan (height / w) = 0.
Proof.
  pose proof w_nonzero as Hw.
  intros Hhw. rewrite Hhw.
  replace (w / w) with 1 by (field; assumption).
  rewrite atan_1. field.
Qed.

Lemma v_pot_level :
  height = w -> v_pot ty diameter_base diameter_top height = NonFinite.
Proof.
  intros Hhw. unfold v_pot. rewrite compute_angles_defined by assumption.
  cbn [bind]. cbv zeta. fold (half_width diameter_base diameter_top). fold w.
  rewrite (alpha_level Hhw), np_tan_zero, np_div_zero. reflexivity.
Qed.

(** Where the height is the opposite of the half width, [alpha] is [pi]:
    the call is outside the model. *)
Lemma alpha_opposite : height = - w -> PI / 2 - 2 * atan (height / w) = PI.
Proof.
  pose proof w_nonzero as Hw.
  intros Hhw. rewrite Hhw.
  replace (- w / w) with (- (w / w)) by (field; assumption).
  rewrite atan_opp.
  replace (w / w) with 1 by (field; assumption).
  rewrite atan_1. field.
Qed.

Lemma v_pot_opposite :
  height = - w -> v_pot ty diameter_base diameter_top height = OutsideModel.
Proof.
  intros Hhw. unfold v_pot. rewrite compute_angles_defined by assumption.
  cbn [bind]. cbv zeta. fold (half_width diameter_base diameter_top). fold w.
  rewrite (alpha_opposite Hhw).
  rewrite np_tan_residue; [reflexivity | | apply sin_PI |].
  - rewrite cos_PI. lra.
  - pose proof PI_RGT_0. lra.
Qed.

Hypothesis Hsquare : w * w <> height * height.

Lemma tan_alpha_nonzero : tan (PI / 2 - 2 * atan (height / w)) <> 0.
Proof.
  pose proof w_nonzero as Hw.
  rewrite tan_alpha_closed. intros E.
  apply div_zero_num in E; [lra |].
  intros Z. apply Rmult_integral in Z. destruct Z as [Z | Z]; [lra | contradiction].
Qed.

Lemma v_pot_value :
  v_pot ty diameter_base diameter_top height
  = Return (v_pot_closed diameter_base diameter_top height).
Proof.
  pose proof w_nonzero as Hw.
  unfold v_pot. rewrite compute_angles_defined by assumption.
  cbn [bind]. cbv zeta. fold (half_width diameter_base diameter_top). fold w.
  rewrite np_tan_regular by (apply cos_alpha_nonzero || apply tan_alpha_nonzero).
  rewrite np_div_nonzero by apply tan_alpha_nonzero.
  cbn [bind]. rewrite tan_alpha_closed.
  unfold v_pot_closed, h_small_closed. fold w. cbv zeta.
  f_equal.
  replace (diameter_base / 2 / ((w * w - height * height) / (2 * height * w)))
    with (diameter_base / 2 * (2 * height * w) / (w * w - height * height)).
  - reflexivity.
  - field. repeat split; try assumption. lra.
Qed.
End Closed.

(** ** v_pot: the steps *)



(** ** Equal diameters *)

Lemma compute_angles_equal_python (diameter height : R) :
  compute_angles PyFloat diameter diameter height = Raise ZeroDivisionError.
Proof.
  unfold compute_angles.
  replace ((diameter - diameter) / 2) with 0 by lra.
  now rewrite true_div_zero_python.
Qed.

Lemma v_pot_equal_python (diameter height : R) :
  v_pot PyFloat diameter diameter height = Raise ZeroDivisionError.
Proof.
  unfold v_pot. now rewrite compute_angles_equal_python.
Qed.

Lemma cos_minus_half_pi : cos (RAD_180 - 2 * (PI / 2)) = 0.
Proof.
  unfold RAD_180. replace (PI / 2 - 2 * (PI / 2)) with (- (PI / 2)) by field.
  rewrite cos_neg. apply cos_PI2.
Qed.

Lemma cos_three_half_pi : cos (RAD_180 - 2 * - (PI / 2)) = 0.
Proof.
  unfold RAD_180. replace (PI / 2 - 2 * - (PI / 2)) with (3 * (PI / 2)) by field.
  apply cos_3PI2.
Qed.

(** With NumPy scalars and equal diameters the quotient is an infinity,
    [beta] is [pi/2] or [-pi/2], [alpha] a pole of the tangent, the small
    cone has no height, and what remains is the big cone. *)
Lemma v_pot_equal_numpy (diameter height : R) :
  height <> 0 ->
  v_pot NpFloat64 diameter diameter height
  = Return (v_cone (diameter / 2) height).
Proof.
  intros Hh. unfold v_pot, compute_angles.
  replace ((diameter - diameter) / 2) with 0 by lra.
  rewrite true_div_zero_numpy.
  destruct (Req_dec_T height 0) as [E | _]; [contradiction |].
  destruct (Rlt_dec 0 height) as [Hpos | Hneg]; cbn [bind np_arctan]; cbv zeta.
  - rewrite (np_tan_pole _ cos_minus_half_pi). cbn [np_div bind].
    f_equal. unfold v_cone. field.
  - rewrite (np_tan_pole _ cos_three_half_pi). cbn [np_div bind].
    f_equal. unfold v_cone. field.
Qed.

Lemma v_pot_equal_numpy_flat (diameter : R) :
  v_pot NpFloat64 diameter diameter 0 = NonFinite.
Proof.
  unfold v_pot, compute_angles.
  replace ((diameter - diameter) / 2) with 0 by lra.
  rewrite true_div_zero_numpy.
  destruct (Req_dec_T 0 0) as [_ | N]; [reflexivity | now destruct N].
Qed.




(** ** Scaling *)

Lemma v_cone_scale (k ray height : R) :
  v_cone (k * ray) (k * height) = k ^ 3 * v_cone ray height.
Proof. unfold v_cone. field. Qed.

Lemma compute_angles_scale (ty : scalar) (k diameter_top diameter_base height : R) :
  k <> 0 -> diameter_top <> diameter_base ->
  compute_angles ty (k * diameter_top) (k * diameter_base) (k * height)
  = compute_angles ty diameter_top diameter_base height.
Proof.
  intros Hk Hd.
  assert (Hkd : k * diameter_top <> k * diameter_base).
  { intros E. apply Hd. now apply (Rmult_eq_reg_l k). }
  rewrite !compute_angles_defined by assumption.
  pose proof (half_width_nonzero _ _ Hd) as Hw.
  replace (k * height / ((k * diameter_top - k * diameter_base) / 2))
    with (height / ((diameter_top - diameter_base) / 2)); [reflexivity |].
  field. split; intros E; [apply Hkd | apply Hd]; lra.
Qed.

(** C9.  Multiplying the three lengths by [k > 0] leaves the two angles
    unchanged and multiplies the volume by [k^3]. *)
Theorem scale_invariance (ty : scalar) (k diameter_top diameter_base height : R) :
  0 < k -> diameter_top <> diameter_base ->
  compute_angles ty (k * diameter_top) (k * diameter_base) (k * height)
  = compute_angles ty diameter_top diameter_base height
  /\ v_pot ty (k * diameter_base) (k * diameter_top) (k * height)
     = omap (fun v => k ^ 3 * v) (v_pot ty diameter_base diameter_top height).
Proof.
  intros Hk Hd.
  assert (Hk0 : k <> 0) by lra.
  pose proof (compute_angles_scale ty k _ _ height Hk0 Hd) as Hca.
  split; [exact Hca |].
  unfold v_pot. rewrite Hca.
  rewrite (compute_angles_defined ty _ _ height Hd). cbn [bind]. cbv zeta.
  set (alpha := PI / 2 - 2 * atan (height / ((diameter_top - diameter_base) / 2))).
  destruct (np_tan alpha) as [t | |]; cbn [np_div].
  - destruct (Req_dec_T t 0) as [Ht | Ht]; [reflexivity |].
    unfold omap. cbn [bind]. f_equal.
    replace (k * diameter_base / 2 / t)
      with (k * (diameter_base / 2 / t)) by (field; assumption).
    replace (k * height + k * (diameter_base / 2 / t))
      with (k * (height + diameter_base / 2 / t)) by ring.
    replace (k * diameter_base / 2) with (k * (diameter_base / 2)) by field.
    replace (k * diameter_top / 2) with (k * (diameter_top / 2)) by field.
    rewrite !v_cone_scale. ring.
  - unfold omap. cbn [bind]. f_equal. unfold v_cone. field.
  - reflexivity.
Qed.

Lemma scale_invariance_witness :
  0 < 2 /\ 19 <> 11 /\
  compute_angles PyFloat (2 * 19) (2 * 11) (2 * 18) = compute_angles PyFloat 19 11 18
  /\ v_pot PyFloat (2 * 11) (2 * 19) (2 * 18)
     = omap (fun v => 2 ^ 3 * v) (v_pot PyFloat 11 19 18).
Proof.
  split; [lra |]. split; [lra |]. apply (scale_invariance PyFloat 2 19 11 18); lra.
Defined.

(** ** The pot of the example: 19 across the top, 11 across the base, 18 high *)

(** C5.  For the diameters 19 and 11 and the height 18, [beta] is an acute
    angle, but [alpha = RAD_180 - 2 * beta] is negative: [beta] exceeds
    [pi/4] as soon as the height exceeds the half width, and [RAD_180] is
    [pi/2]. *)
Theorem compute_angles_example_alpha_negative (ty : scalar) :
  exists alpha beta : R,
    compute_angles ty 19 11 18 = Return (alpha, beta)
    /\ 0 < beta < PI / 2
    /\ alpha < 0
    /\ ~ (0 < alpha < PI / 2).
Proof.
  exists (PI / 2 - 2 * atan (18 / ((19 - 11) / 2))),
         (atan (18 / ((19 - 11) / 2))).
  assert (Hb : PI / 4 < atan (18 / ((19 - 11) / 2)) < PI / 2).
  { split.
    - rewrite <- atan_1. apply atan_increasing. lra.
    - apply atan_bound. }
  pose proof PI_RGT_0 as Hpi.
  split; [apply compute_angles_defined; lra |].
  repeat split; try lra.
Qed.

(** ** Sign of the result *)

Lemma v_pot_at (ty : scalar) (diameter_base diameter_top height v : R) :
  diameter_top <> diameter_base ->
  height <> 0 ->
  half_width diameter_base diameter_top * half_width diameter_base diameter_top
  <> height * height ->
  v_pot_closed diameter_base diameter_top height = v ->
  v_pot ty diameter_base diameter_top height = Return v.
Proof.
  intros Hd Hh Hs <-. now apply v_pot_value.
Qed.

(** C2.  A pot with [diameter_top > diameter_base > 0] and [height > 0]
    for which [v_pot] returns a negative number (base 2, top 4, height
    3/2), and one for which it returns no finite number (base 2, top 4,
    height 1, where [alpha] is zero). *)
Theorem v_pot_negative_or_non_finite (ty : scalar) :
  v_pot ty 2 4 (3 / 2) = Return (- (2 * PI / 5))
  /\ - (2 * PI / 5) < 0
  /\ v_pot ty 2 4 1 = NonFinite.
Proof.
  pose proof PI_RGT_0 as Hpi.
  split; [| split].
  - apply v_pot_at; unfold half_width; try lra.
    unfold v_pot_closed, h_small_closed, half_width, v_cone. field.
  - lra.
  - apply v_pot_level; unfold half_width; lra.
Qed.

(** C6.  With the base 2 and the height 1, the result for the top
    diameter 5/2 is larger than the result for the top diameter 3. *)
Theorem v_pot_not_increasing_in_top (ty : scalar) :
  v_pot ty 2 (5 / 2) 1 = Return (101 * PI / 240)
  /\ v_pot ty 2 3 1 = Return (7 * PI / 36)
  /\ 7 * PI / 36 < 101 * PI / 240.
Proof.
  pose proof PI_RGT_0 as Hpi.
  split; [| split].
  - apply v_pot_at; unfold half_width; try lra.
    unfold v_pot_closed, h_small_closed, half_width, v_cone. field.
  - apply v_pot_at; unfold half_width; try lra.
    unfold v_pot_closed, h_small_closed, half_width, v_cone. field.
  - lra.
Qed.

Lemma v_pot_example_value (ty : scalar) : v_pot ty 11 19 18 = Return (6861 * PI / 14).
Proof.
  apply v_pot_at; unfold half_width; try lra.
  unfold v_pot_closed, h_small_closed, half_width, v_cone. field.
Qed.

(** ** Top diameter close to the base diameter *)

Section NearCylinder.
Variable ty : scalar.
Variables diameter_base diameter_top height : R.
Let r := diameter_base / 2.
Let w := half_width diameter_base diameter_top.
Let hs := h_small_closed diameter_base diameter_top height.
Hypothesis Hbase : 0 < diameter_base.
Hypothesis Hheight : 0 < height.
Hypothesis Hw_pos : 0 < w.
Hypothesis Hw_half : w < height / 2.

Lemma h_small_closed_eq : hs * (height * height - w * w) = - (r * (2 * height * w)).
Proof.
  unfold hs, h_small_closed. fold w. fold r. cbv zeta.
  field. nra.
Qed.

Lemma h_small_closed_bounds : - (4 * r / 3) <= hs <= 0.
Proof.
  pose proof h_small_closed_eq as E.
  assert (Hr : 0 < r) by (unfold r; lra).
  assert (HD : 0 < height * height - w * w) by nra.
  assert (Hhw : 0 < height * w) by nra.
  assert (Hrhw : 0 < r * (height * w)) by nra.
  split.
  - apply Rnot_lt_le. intros Hlt.
    assert (hs * (height * height - w * w)
            < - (4 * r / 3) * (height * height - w * w)) by nra.
    assert (Hww : w * w < height * height / 4) by nra.
    assert (Hhw2 : height * w < height * height / 2) by nra.
    assert (0 <= r * (4 * height * height - 4 * w * w - 6 * (height * w)))
      by (apply Rmult_le_pos; lra).
    nra.
  - apply Rnot_lt_le. intros Hlt.
    assert (0 < hs * (height * height - w * w)) by nra.
    nra.
Qed.

Lemma v_pot_closed_minus_third :
  v_pot_closed diameter_base diameter_top height
  - v_cylinder diameter_base height / 3
  = PI / 3 * (w * (2 * r + w)) * (height + hs).
Proof.
  unfold v_pot_closed. fold hs. cbv zeta.
  unfold v_cone, v_cylinder.
  replace (diameter_top / 2) with (r + w) by (unfold r, w, half_width; field).
  fold r. field.
Qed.

Lemma v_pot_near_value :
  v_pot ty diameter_base diameter_top height
  = Return (v_pot_closed diameter_base diameter_top height).
Proof.
  apply v_pot_value.
  - intros E. unfold w, half_width in Hw_pos. rewrite E in Hw_pos. lra.
  - lra.
  - fold w. nra.
Qed.

Lemma v_pot_closed_near_third :
  w <= 1 ->
  Rabs (v_pot_closed diameter_base diameter_top height
        - v_cylinder diameter_base height / 3)
  <= PI / 3 * (2 * r + 1) * (height + 4 * r / 3) * w.
Proof.
  intros Hw1.
  rewrite v_pot_closed_minus_third.
  pose proof h_small_closed_bounds as [Hlo Hhi].
  pose proof PI_RGT_0 as Hpi.
  assert (Hr : 0 < r) by (unfold r; lra).
  assert (HX : 0 <= w * (2 * r + w) <= w * (2 * r + 1)) by nra.
  assert (HY : Rabs (height + hs) <= height + 4 * r / 3).
  { apply Rabs_le. lra. }
  rewrite Rabs_mult.
  rewrite (Rabs_pos_eq (PI / 3 * (w * (2 * r + w))))
    by (apply Rmult_le_pos; lra).
  assert (H0 : 0 <= Rabs (height + hs)) by apply Rabs_pos.
  assert (H1 : w * (2 * r + w) * Rabs (height + hs)
               <= w * (2 * r + 1) * (height + 4 * r / 3)).
  { apply Rmult_le_compat; lra. }
  replace (PI / 3 * (w * (2 * r + w)) * Rabs (height + hs))
    with (PI / 3 * (w * (2 * r + w) * Rabs (height + hs))) by ring.
  replace (PI / 3 * (2 * r + 1) * (height + 4 * r / 3) * w)
    with (PI / 3 * (w * (2 * r + 1) * (height + 4 * r / 3))) by ring.
  apply Rmult_le_compat_l; lra.
Qed.

(** Below the pole the small cone has a negative height, and the result
    stays under the volume of the big cone taken with the pot's height. *)
Lemma v_pot_closed_below_cone :
  v_pot_closed diameter_base diameter_top height
  < v_cone (diameter_top / 2) height.
Proof.
  pose proof h_small_closed_eq as E.
  pose proof h_small_closed_bounds as [_ Hhi].
  pose proof PI_RGT_0 as Hpi.
  assert (Hr : 0 < r) by (unfold r; lra).
  assert (Hneg : hs < 0).
  { destruct Hhi as [Hlt | Heq]; [assumption |].
    rewrite Heq, Rmult_0_l in E.
    assert (0 < height * w) by (apply Rmult_lt_0_compat; lra).
    assert (0 < r * (2 * height * w)) by (apply Rmult_lt_0_compat; lra).
    lra. }
  unfold v_pot_closed. fold hs. cbv zeta. unfold v_cone.
  replace (diameter_top / 2) with (r + w) by (unfold r, w, half_width; field).
  fold r.
  assert (HX : 0 < w * (2 * r + w)) by (apply Rmult_lt_0_compat; lra).
  assert (HXY : 0 < w * (2 * r + w) * (- hs)) by (apply Rmult_lt_0_compat; lra).
  apply Rminus_lt.
  replace (PI * (r + w) ^ 2 * (height + hs) / 3 - PI * r ^ 2 * hs / 3
           - PI * (r + w) ^ 2 * height / 3)
    with (- (PI / 3 * (w * (2 * r + w) * (- hs)))) by field.
  assert (0 < PI / 3 * (w * (2 * r + w) * (- hs)))
    by (apply Rmult_lt_0_compat; lra).
  lra.
Qed.
End NearCylinder.

(** C3.  For a fixed base diameter and height, both positive, the result
    of [v_pot] tends, as the top diameter decreases to the base diameter,
    to one third of the volume of the cylinder
    [pi * (diameter_base / 2)^2 * height]. *)
Theorem v_pot_limit_third_of_cylinder (ty : scalar) (diameter_base height eps : R) :
  0 < diameter_base -> 0 < height -> 0 < eps ->
  exists delta : R,
    0 < delta
    /\ forall diameter_top : R,
         diameter_base < diameter_top < diameter_base + delta ->
         exists v : R,
           v_pot ty diameter_base diameter_top height = Return v
           /\ Rabs (v - v_cylinder diameter_base height / 3) < eps.
Proof.
  intros Hb Hh He.
  pose proof PI_RGT_0 as Hpi.
  set (C := PI / 3 * (2 * (diameter_base / 2) + 1)
            * (height + 4 * (diameter_base / 2) / 3)).
  assert (HC : 0 < C).
  { unfold C. apply Rmult_lt_0_compat; [apply Rmult_lt_0_compat |]; lra. }
  set (m := Rmin (Rmin (height / 2) 1) (eps / C)).
  assert (Hm : 0 < m).
  { unfold m. repeat apply Rmin_glb_lt; try lra.
    now apply Rdiv_lt_0_compat. }
  exists (2 * m). split; [lra |].
  intros diameter_top [Hlo Hhi].
  assert (Hw0 : 0 < half_width diameter_base diameter_top)
    by (unfold half_width; lra).
  assert (Hwm : half_width diameter_base diameter_top < m)
    by (unfold half_width; lra).
  assert (Hw1 : half_width diameter_base diameter_top < height / 2).
  { eapply Rlt_le_trans; [exact Hwm |]. unfold m.
    eapply Rle_trans; [apply Rmin_l | apply Rmin_l]. }
  assert (Hw2 : half_width diameter_base diameter_top <= 1).
  { apply Rlt_le. eapply Rlt_le_trans; [exact Hwm |]. unfold m.
    eapply Rle_trans; [apply Rmin_l | apply Rmin_r]. }
  assert (Hw3 : half_width diameter_base diameter_top < eps / C).
  { eapply Rlt_le_trans; [exact Hwm |]. unfold m. apply Rmin_r. }
  exists (v_pot_closed diameter_base diameter_top height).
  split; [now apply v_pot_near_value |].
  eapply Rle_lt_trans.
  - now apply v_pot_closed_near_third.
  - fold C.
    apply (Rmult_lt_compat_l C) in Hw3; [| assumption].
    replace (C * (eps / C)) with eps in Hw3 by (field; lra).
    exact Hw3.
Qed.

Lemma v_pot_limit_third_of_cylinder_witness :
  exists delta : R,
    0 < delta
    /\ forall diameter_top : R,
         2 < diameter_top < 2 + delta ->
         exists v : R,
           v_pot PyFloat 2 diameter_top 1 = Return v
           /\ Rabs (v - v_cylinder 2 1 / 3) < 1 / 10.
Proof.
  apply (v_pot_limit_third_of_cylinder PyFloat 2 1 (1 / 10)); lra.
Defined.

(** The volume of the cylinder is not that limit: with the base 2 and the
    height 1 every top diameter between 2 and 3 gives a result that is
    more than [pi / 4] away from it. *)
Lemma v_pot_far_from_cylinder (ty : scalar) (diameter_top : R) :
  2 < diameter_top < 3 ->
  exists v : R,
    v_pot ty 2 diameter_top 1 = Return v /\ v < v_cylinder 2 1 - PI / 4.
Proof.
  intros [Hlo Hhi].
  pose proof PI_RGT_0 as Hpi.
  assert (Hw0 : 0 < half_width 2 diameter_top) by (unfold half_width; lra).
  assert (Hw1 : half_width 2 diameter_top < 1 / 2) by (unfold half_width; lra).
  exists (v_pot_closed 2 diameter_top 1). split.
  - apply v_pot_near_value; lra.
  - eapply Rlt_le_trans; [apply v_pot_closed_below_cone; lra |].
    unfold v_cone, v_cylinder.
    assert (0 < diameter_top / 2 < 3 / 2) by lra.
    assert ((diameter_top / 2) ^ 2 <= 9 / 4) by (simpl; nra).
    nra.
Qed.


(** ** Which outcome [v_pot] has *)

Ltac outcome_cases :=
  repeat split; intros;
  repeat match goal with
         | H : exists _, _ |- _ => destruct H
         | H : _ /\ _ |- _ => destruct H
         | H : _ \/ _ |- _ => destruct H
         end;
  try discriminate; try contradiction; try congruence;
  try (eexists; reflexivity).

Lemma square_eq_dec (a b : R) : {a * a = b * b} + {a * a <> b * b}.
Proof. apply Req_dec_T. Qed.

Lemma square_eq_cases (a b : R) : a * a = b * b -> b = a \/ b = - a.
Proof.
  intros E.
  assert (Hz : (b - a) * (b + a) = 0) by (ring_simplify; lra).
  apply Rmult_integral in Hz. destruct Hz; [left | right]; lra.
Qed.

(** With different diameters [v_pot] never raises: its outcome is a
    number, or no finite value where the height is the half width, or
    outside the model where the height is the opposite of the half
    width. *)
Lemma v_pot_different_diameters
    (ty : scalar) (diameter_base diameter_top height : R) :
  diameter_top <> diameter_base ->
  let w := half_width diameter_base diameter_top in
  (height = w /\ v_pot ty diameter_base diameter_top height = NonFinite)
  \/ (height <> w
      /\ v_pot ty diameter_base diameter_top height = OutsideModel)
  \/ (height <> w
      /\ exists v : R, v_pot ty diameter_base diameter_top height = Return v).
Proof.
  intros Hne w.
  assert (Hw : w <> 0) by (unfold w, half_width; now apply half_width_nonzero).
  destruct (Req_dec_T height 0) as [Hz | Hh].
  - right. right. split; [lra |]. eexists. now apply v_pot_flat.
  - destruct (square_eq_dec w height) as [Hsq | Hsq].
    + destruct (square_eq_cases _ _ Hsq) as [E | E].
      * left. split; [exact E |]. now apply v_pot_level.
      * right. left. split; [lra |]. now apply v_pot_opposite.
    + right. right. split.
      * intros E. apply Hsq. rewrite E. reflexivity.
      * eexists. now apply v_pot_value.
Qed.

(** X1.  The outcome of [v_pot] is told by the arguments alone.  It
    raises [ZeroDivisionError] exactly when the arguments are Python floats
    and the two diameters are equal.  Its value is [inf] or [nan] exactly
    when the height equals the half width and, besides, the diameters
    differ or the arguments are NumPy scalars. *)
Theorem v_pot_outcome_classes (ty : scalar) (diameter_base diameter_top height : R) :
  let w := half_width diameter_base diameter_top in
  (v_pot ty diameter_base diameter_top height = Raise ZeroDivisionError
   <-> ty = PyFloat /\ diameter_top = diameter_base)
  /\ (v_pot ty diameter_base diameter_top height = NonFinite
      <-> height = w /\ (diameter_top <> diameter_base \/ ty = NpFloat64)).
Proof.
  intros w.
  destruct (Req_dec_T diameter_top diameter_base) as [Heq | Hne].
  - subst diameter_top.
    assert (Hw : w = 0) by (unfold w, half_width; lra).
    destruct ty.
    + rewrite v_pot_equal_python. outcome_cases.
    + destruct (Req_dec_T height 0) as [Hz | Hh].
      * subst height. rewrite v_pot_equal_numpy_flat.
        outcome_cases; solve [lra | now right].
      * rewrite (v_pot_equal_numpy _ _ Hh). outcome_cases; lra.
  - destruct (v_pot_different_diameters ty _ _ height Hne)
      as [[E Hv] | [[E Hv] | [E [v Hv]]]];
      fold w in E; rewrite Hv; outcome_cases; now left.
Qed.

(** X2.  Where [v_pot] returns a number, that number is a rational
    function of the three lengths, times [pi]: with the radii
    [R = diameter_top / 2], [r = diameter_base / 2] and the half width
    [w = R - r], it is
    [pi * height / 3 * (R^2 + 2 * r * w^2 * (R + r) / (w^2 - height^2))]. *)
Theorem v_pot_rational (ty : scalar) (diameter_base diameter_top height : R) :
  diameter_top <> diameter_base ->
  height <> 0 ->
  let w := half_width diameter_base diameter_top in
  w * w <> height * height ->
  v_pot ty diameter_base diameter_top height
  = Return (PI * height / 3
            * ((diameter_top / 2) ^ 2
               + 2 * (diameter_base / 2) * (w * w)
                 * (diameter_top / 2 + diameter_base / 2)
                 / (w * w - height * height))).
Proof.
  intros Hd Hh w Hsq.
  apply v_pot_at; try assumption.
  unfold v_pot_closed, h_small_closed, v_cone. fold w. cbv zeta.
  replace (diameter_top / 2) with (diameter_base / 2 + w)
    by (unfold w, half_width; field).
  field. lra.
Qed.

Lemma v_pot_rational_witness :
  4 <> 2 /\ 3 / 2 <> 0
  /\ half_width 2 4 * half_width 2 4 <> 3 / 2 * (3 / 2)
  /\ v_pot PyFloat 2 4 (3 / 2)
     = Return (PI * (3 / 2) / 3
               * ((4 / 2) ^ 2
                  + 2 * (2 / 2) * (half_width 2 4 * half_width 2 4)
                    * (4 / 2 + 2 / 2)
                    / (half_width 2 4 * half_width 2 4 - 3 / 2 * (3 / 2)))).
Proof.
  assert (H1 : 4 <> 2) by lra.
  assert (H2 : 3 / 2 <> 0) by lra.
  assert (H3 : half_width 2 4 * half_width 2 4 <> 3 / 2 * (3 / 2))
    by (unfold half_width; lra).
  split; [exact H1 |]. split; [exact H2 |]. split; [exact H3 |].
  exact (v_pot_rational PyFloat 2 4 (3 / 2) H1 H2 H3).
Defined.

(** ** The angles of a pot that widens upwards *)

Lemma atan_quarter_cases (t : R) :
  (t < 1 -> atan t < PI / 4)
  /\ (t = 1 -> atan t = PI / 4)
  /\ (1 < t -> PI / 4 < atan t).
Proof.
  rewrite <- atan_1. repeat split.
  - apply atan_increasing.
  - now intros ->.
  - apply atan_increasing.
Qed.

(** X3.  For [diameter_top > diameter_base] and a positive height,
    [compute_angles] returns an acute [beta] and an [alpha] strictly
    between [-pi/2] and [pi/2] whose sign compares the height with the half
    width: [alpha] is positive when the height is smaller, zero when they
    are equal and negative when the height is larger. *)
Theorem compute_angles_signs (ty : scalar) (diameter_top diameter_base height : R) :
  diameter_base < diameter_top -> 0 < height ->
  let w := half_width diameter_base diameter_top in
  exists alpha beta : R,
    compute_angles ty diameter_top diameter_base height = Return (alpha, beta)
    /\ 0 < beta < PI / 2
    /\ - (PI / 2) < alpha < PI / 2
    /\ (0 < alpha <-> height < w)
    /\ (alpha = 0 <-> height = w)
    /\ (alpha < 0 <-> w < height).
Proof.
  intros Hd Hh w.
  assert (Hw : 0 < w) by (unfold w, half_width; lra).
  exists (PI / 2 - 2 * atan (height / w)), (atan (height / w)).
  split; [apply compute_angles_defined; lra |].
  assert (Ht : 0 < height / w) by now apply Rdiv_lt_0_compat.
  assert (Hb : 0 < atan (height / w) < PI / 2).
  { split; [| apply atan_bound].
    rewrite <- atan_0. now apply atan_increasing. }
  destruct (atan_quarter_cases (height / w)) as [Hlt [Heq Hgt]].
  assert (Hr1 : height < w -> height / w < 1).
  { intros H. apply (Rmult_lt_reg_r w); [assumption |].
    unfold Rdiv. rewrite Rmult_assoc, Rinv_l by lra. lra. }
  assert (Hr2 : height = w -> height / w = 1).
  { intros ->. field. lra. }
  assert (Hr3 : w < height -> 1 < height / w).
  { intros H. apply (Rmult_lt_reg_r w); [assumption |].
    unfold Rdiv. rewrite Rmult_assoc, Rinv_l by lra. lra. }
  split; [exact Hb |]. split; [lra |].
  destruct (Rtotal_order height w) as [H | [H | H]].
  - pose proof (Hlt (Hr1 H)). repeat split; intros; lra.
  - pose proof (Heq (Hr2 H)). repeat split; intros; lra.
  - pose proof (Hgt (Hr3 H)). repeat split; intros; lra.
Qed.

Lemma compute_angles_signs_witness :
  11 < 19 /\ 0 < 18
  /\ exists alpha beta : R,
       compute_angles PyFloat 19 11 18 = Return (alpha, beta)
       /\ 0 < beta < PI / 2
       /\ - (PI / 2) < alpha < PI / 2
       /\ (0 < alpha <-> 18 < half_width 11 19)
       /\ (alpha = 0 <-> 18 = half_width 11 19)
       /\ (alpha < 0 <-> half_width 11 19 < 18).
Proof.
  split; [lra |]. split; [lra |].
  apply (compute_angles_signs PyFloat 19 11 18); lra.
Defined.

(** ** Sign and size of the result for a pot that widens upwards *)

Section Widening.
Variable ty : scalar.
Variables diameter_base diameter_top height : R.
Let r := diameter_base / 2.
Let R' := diameter_top / 2.
Let w := half_width diameter_base diameter_top.
Hypothesis Hbase : 0 < diameter_base.
Hypothesis Hwide : diameter_base < diameter_top.
Hypothesis Hheight : 0 < height.
Hypothesis Hoff : height <> w.

Lemma widening_facts : 0 < r /\ 0 < w /\ R' = r + w /\ w * w <> height * height.
Proof.
  assert (Hr : 0 < r) by (unfold r; lra).
  assert (Hw : 0 < w) by (unfold w, half_width; lra).
  repeat split; try assumption.
  - unfold R', r, w, half_width. field.
  - intros E. apply Hoff.
    assert (Hz : (height - w) * (height + w) = 0) by (ring_simplify; lra).
    apply Rmult_integral in Hz. destruct Hz; lra.
Qed.

Lemma v_pot_widening_value :
  v_pot ty diameter_base diameter_top height
  = Return (v_pot_closed diameter_base diameter_top height).
Proof.
  destruct widening_facts as [_ [_ [_ Hsq]]].
  apply v_pot_value; try lra. exact Hsq.
Qed.

Lemma v_pot_closed_times :
  v_pot_closed diameter_base diameter_top height * (w * w - height * height)
  = PI * height / 3
    * (w * w * ((R' + r) ^ 2 + r ^ 2) - height * height * R' ^ 2).
Proof.
  destruct widening_facts as [_ [_ [HR Hsq]]].
  unfold v_pot_closed, h_small_closed, v_cone. fold w. cbv zeta.
  fold r. fold R'. rewrite HR. field. lra.
Qed.

Lemma v_pot_closed_minus_frustum_times :
  (v_pot_closed diameter_base diameter_top height
   - PI * height * (R' ^ 2 + R' * r + r ^ 2) / 3)
  * (w * w - height * height)
  = PI * height / 3 * (r * (R' + r) * (w * w + height * height)).
Proof.
  destruct widening_facts as [_ [_ [HR Hsq]]].
  unfold v_pot_closed, h_small_closed, v_cone. fold w. cbv zeta.
  fold r. fold R'. rewrite HR. field. lra.
Qed.

Lemma square_order : (height < w <-> 0 < w * w - height * height).
Proof.
  destruct widening_facts as [_ [Hw _]].
  split; intros H; [nra |].
  apply Rnot_le_lt. intros Hle. nra.
Qed.

Lemma v_pot_closed_positive_iff :
  0 < v_pot_closed diameter_base diameter_top height
  <-> height < w
      \/ w * w * ((R' + r) ^ 2 + r ^ 2) < height * height * R' ^ 2.
Proof.
  destruct widening_facts as [Hr [Hw [HR Hsq]]].
  pose proof v_pot_closed_times as E.
  pose proof PI_RGT_0 as Hpi.
  set (v := v_pot_closed diameter_base diameter_top height) in *.
  set (D := w * w - height * height) in *.
  set (N := w * w * ((R' + r) ^ 2 + r ^ 2) - height * height * R' ^ 2) in *.
  assert (Hc : 0 < PI * height / 3) by nra.
  assert (HR0 : 0 < R') by lra.
  assert (HN : N = R' ^ 2 * D + 2 * r * (w * w) * (R' + r))
    by (unfold N, D; ring).
  assert (Hww : 0 < w * w) by nra.
  assert (Hextra : 0 < 2 * r * (w * w) * (R' + r)).
  { repeat apply Rmult_lt_0_compat; lra. }
  assert (HR2 : 0 < R' ^ 2) by (simpl; nra).
  destruct (Rtotal_order height w) as [H | [H | H]]; [| contradiction |].
  - assert (HD : 0 < D) by (apply square_order; exact H).
    split; [now left |]. intros _.
    assert (0 < N) by (rewrite HN; nra).
    assert (0 < v * D) by (rewrite E; now apply Rmult_lt_0_compat).
    apply Rnot_le_lt. intros Hle. nra.
  - assert (HD : D < 0).
    { apply Rnot_le_lt. intros Hle. destruct Hle as [Hlt | Heq].
      - apply square_order in Hlt. lra.
      - apply Hsq. unfold D in Heq. lra. }
    split.
    + intros Hv. right.
      assert (v * D < 0) by nra.
      assert (HcN : PI * height / 3 * N < 0) by (rewrite <- E; assumption).
      assert (N < 0) by (apply Rnot_le_lt; intros Hle; nra).
      unfold N in *. lra.
    + intros [Hlt | HNlt]; [lra |].
      assert (N < 0) by (unfold N; lra).
      assert (v * D < 0) by (rewrite E; nra).
      apply Rnot_le_lt. intros Hle. nra.
Qed.

Lemma v_pot_closed_frustum_order :
  let F := PI * height * (R' ^ 2 + R' * r + r ^ 2) / 3 in
  (height < w -> F < v_pot_closed diameter_base diameter_top height)
  /\ (w < height -> v_pot_closed diameter_base diameter_top height < F).
Proof.
  intros F.
  destruct widening_facts as [Hr [Hw [HR Hsq]]].
  pose proof v_pot_closed_minus_frustum_times as E. fold F in E.
  pose proof PI_RGT_0 as Hpi.
  set (v := v_pot_closed diameter_base diameter_top height) in *.
  set (D := w * w - height * height) in *.
  assert (Hc : 0 < PI * height / 3).
  { apply Rmult_lt_0_compat; [apply Rmult_lt_0_compat |]; lra. }
  assert (Hsum : 0 < w * w + height * height).
  { apply Rplus_lt_0_compat; apply Rmult_lt_0_compat; assumption. }
  assert (Hpos : 0 < PI * height / 3 * (r * (R' + r) * (w * w + height * height))).
  { apply Rmult_lt_0_compat; [assumption |].
    apply Rmult_lt_0_compat; [apply Rmult_lt_0_compat |]; lra. }
  rewrite <- E in Hpos.
  split; intros H.
  - assert (HD : 0 < D) by (apply square_order; exact H).
    apply Rnot_le_lt. intros Hle. nra.
  - assert (HD : D < 0).
    { apply Rnot_le_lt. intros Hle. destruct Hle as [Hlt | Heq].
      - apply square_order in Hlt. lra.
      - apply Hsq. unfold D in Heq. lra. }
    apply Rnot_le_lt. intros Hle. nra.
Qed.
End Widening.

(** X4.  For a pot with [0 < diameter_base < diameter_top], a positive
    height and a half width [w] other than the height, [v_pot] returns a
    number, and that number is positive exactly when the height is below
    [w] or [w^2 * ((R + r)^2 + r^2) < height^2 * R^2], with [R] and [r] the
    top and base radii. *)
Theorem v_pot_positive_iff (ty : scalar) (diameter_base diameter_top height : R) :
  0 < diameter_base -> diameter_base < diameter_top -> 0 < height ->
  let r := diameter_base / 2 in
  let R' := diameter_top / 2 in
  let w := half_width diameter_base diameter_top in
  height <> w ->
  exists v : R,
    v_pot ty diameter_base diameter_top height = Return v
    /\ (0 < v
        <-> height < w
            \/ w * w * ((R' + r) ^ 2 + r ^ 2) < height * height * R' ^ 2).
Proof.
  intros Hb Hd Hh r R' w Hoff.
  exists (v_pot_closed diameter_base diameter_top height). split.
  - now apply v_pot_widening_value.
  - now apply v_pot_closed_positive_iff.
Qed.

Lemma v_pot_positive_iff_witness :
  0 < 2 /\ 2 < 4 /\ 0 < 3 / 2 /\ 3 / 2 <> half_width 2 4
  /\ exists v : R,
       v_pot PyFloat 2 4 (3 / 2) = Return v
       /\ (0 < v
           <-> 3 / 2 < half_width 2 4
               \/ half_width 2 4 * half_width 2 4
                  * ((4 / 2 + 2 / 2) ^ 2 + (2 / 2) ^ 2)
                  < 3 / 2 * (3 / 2) * (4 / 2) ^ 2).
Proof.
  assert (H1 : 0 < 2) by lra.
  assert (H2 : 2 < 4) by lra.
  assert (H3 : 0 < 3 / 2) by lra.
  assert (H4 : 3 / 2 <> half_width 2 4) by (unfold half_width; lra).
  repeat (split; [assumption |]).
  exact (v_pot_positive_iff PyFloat 2 4 (3 / 2) H1 H2 H3 H4).
Defined.

(** X5.  For such a pot the number [v_pot] returns is never the volume
    [pi * height * (R^2 + R * r + r^2) / 3] of the frustum with the radii
    [R] and [r]: it is larger when the height is below the half width and
    smaller when the height is above it. *)
Theorem v_pot_misses_frustum (ty : scalar) (diameter_base diameter_top height : R) :
  0 < diameter_base -> diameter_base < diameter_top -> 0 < height ->
  let r := diameter_base / 2 in
  let R' := diameter_top / 2 in
  let w := half_width diameter_base diameter_top in
  let F := PI * height * (R' ^ 2 + R' * r + r ^ 2) / 3 in
  v_pot ty diameter_base diameter_top height <> Return F
  /\ (height <> w ->
      exists v : R,
        v_pot ty diameter_base diameter_top height = Return v
        /\ (height < w -> F < v)
        /\ (w < height -> v < F)).
Proof.
  intros Hb Hd Hh r R' w F.
  assert (Hcase : height <> w ->
                  exists v : R,
                    v_pot ty diameter_base diameter_top height = Return v
                    /\ (height < w -> F < v) /\ (w < height -> v < F)).
  { intros Hoff.
    exists (v_pot_closed diameter_base diameter_top height). split.
    - now apply v_pot_widening_value.
    - now apply v_pot_closed_frustum_order. }
  split; [| exact Hcase].
  destruct (Req_dec_T height w) as [Heq | Hoff].
  - rewrite v_pot_level; [discriminate | lra | exact Heq].
  - destruct (Hcase Hoff) as [v [Hv [Hlo Hhi]]].
    rewrite Hv. intros E. injection E as E.
    destruct (Rtotal_order height w) as [H | [H | H]]; [| contradiction |].
    + specialize (Hlo H). lra.
    + specialize (Hhi H). lra.
Qed.

Lemma v_pot_misses_frustum_witness :
  0 < 11 /\ 11 < 19 /\ 0 < 18
  /\ v_pot PyFloat 11 19 18
     <> Return (PI * 18 * ((19 / 2) ^ 2 + 19 / 2 * (11 / 2) + (11 / 2) ^ 2) / 3).
Proof.
  assert (H1 : 0 < 11) by lra.
  assert (H2 : 11 < 19) by lra.
  assert (H3 : 0 < 18) by lra.
  repeat (split; [assumption |]).
  exact (proj1 (v_pot_misses_frustum PyFloat 11 19 18 H1 H2 H3)).
Defined.

(** ** A pot with a pointed base *)

(** X6.  With [diameter_base = 0] the small cone has the height zero and
    [v_pot] returns the volume of the cone with the top radius and the
    pot's height, provided that the top diameter and the height are not
    zero and the top radius and the height have different squares. *)
Theorem v_pot_pointed_base (ty : scalar) (diameter_top height : R) :
  diameter_top <> 0 -> height <> 0 ->
  diameter_top / 2 * (diameter_top / 2) <> height * height ->
  v_pot ty 0 diameter_top height = Return (v_cone (diameter_top / 2) height).
Proof.
  intros Hd Hh Hsq.
  assert (Hw : half_width 0 diameter_top = diameter_top / 2)
    by (unfold half_width; field).
  apply v_pot_at; try assumption.
  - now rewrite Hw.
  - unfold v_pot_closed, h_small_closed. rewrite Hw. cbv zeta.
    unfold v_cone. field. lra.
Qed.

Lemma v_pot_pointed_base_witness :
  4 <> 0 /\ 3 <> 0 /\ 4 / 2 * (4 / 2) <> 3 * 3
  /\ v_pot PyFloat 0 4 3 = Return (v_cone (4 / 2) 3).
Proof.
  assert (H1 : 4 <> 0) by lra.
  assert (H2 : 3 <> 0) by lra.
  assert (H3 : 4 / 2 * (4 / 2) <> 3 * 3) by lra.
  repeat (split; [assumption |]).
  exact (v_pot_pointed_base PyFloat 4 3 H1 H2 H3).
Defined.

(** ** The height *)




Lemma h_small_closed_times (diameter_base diameter_top height : R) :
  let w := half_width diameter_base diameter_top in
  w * w <> height * height ->
  h_small_closed diameter_base diameter_top height * (w * w - height * height)
  = diameter_base / 2 * (2 * height * w).
Proof.
  intros w Hsq. unfold h_small_closed. fold w. cbv zeta. field. lra.
Qed.

Lemma v_pot_closed_split (diameter_base diameter_top height : R) :
  let w := half_width diameter_base diameter_top in
  v_pot_closed diameter_base diameter_top height
  = PI / 3 * ((diameter_top / 2) ^ 2 * height
              + w * (diameter_top / 2 + diameter_base / 2)
                * h_small_closed diameter_base diameter_top height).
Proof.
  intros w. unfold v_pot_closed, v_cone, w, half_width. cbv zeta. field.
Qed.

Section TallerPot.
Variable ty : scalar.
Variables diameter_base diameter_top h1 h2 : R.
Let r := diameter_base / 2.
Let w := half_width diameter_base diameter_top.
Hypothesis Hbase : 0 < diameter_base.
Hypothesis Hwide : diameter_base < diameter_top.
Hypothesis Hh1 : 0 < h1.
Hypothesis Hh12 : h1 < h2.
Hypothesis Hside : h2 < w \/ w < h1.

Lemma taller_denominators :
  0 < w /\ 0 < (w * w - h1 * h1) * (w * w - h2 * h2).
Proof.
  assert (Hw : 0 < w) by (unfold w, half_width; lra).
  split; [assumption |].
  destruct Hside as [H | H].
  - apply Rmult_lt_0_compat; nra.
  - replace ((w * w - h1 * h1) * (w * w - h2 * h2))
      with ((h1 * h1 - w * w) * (h2 * h2 - w * w)) by ring.
    apply Rmult_lt_0_compat; nra.
Qed.

Lemma h_small_closed_increasing :
  h_small_closed diameter_base diameter_top h1
  < h_small_closed diameter_base diameter_top h2.
Proof.
  destruct taller_denominators as [Hw HD].
  assert (Hr : 0 < r) by (unfold r; lra).
  assert (Hsq1 : w * w <> h1 * h1) by (intros E; rewrite E in HD; nra).
  assert (Hsq2 : w * w <> h2 * h2) by (intros E; rewrite E in HD; nra).
  pose proof (h_small_closed_times diameter_base diameter_top h1 Hsq1) as E1.
  pose proof (h_small_closed_times diameter_base diameter_top h2 Hsq2) as E2.
  cbv zeta in E1, E2. fold w in E1, E2. fold r in E1, E2.
  set (s1 := h_small_closed diameter_base diameter_top h1) in *.
  set (s2 := h_small_closed diameter_base diameter_top h2) in *.
  set (D1 := w * w - h1 * h1) in *.
  set (D2 := w * w - h2 * h2) in *.
  assert (Hdiff : (s2 - s1) * (D1 * D2)
                  = 2 * r * w * ((h2 - h1) * (w * w + h1 * h2))).
  { replace ((s2 - s1) * (D1 * D2))
      with (s2 * D2 * D1 - s1 * D1 * D2) by ring.
    rewrite E1, E2. unfold D1, D2. ring. }
  assert (Hpos : 0 < 2 * r * w * ((h2 - h1) * (w * w + h1 * h2))).
  { apply Rmult_lt_0_compat; [apply Rmult_lt_0_compat; lra |].
    apply Rmult_lt_0_compat; [lra |].
    apply Rplus_lt_0_compat; apply Rmult_lt_0_compat; lra. }
  rewrite <- Hdiff in Hpos.
  apply Rnot_le_lt. intros Hle.
  assert ((s2 - s1) * (D1 * D2) <= 0).
  { replace 0 with (0 * (D1 * D2)) by ring.
    apply Rmult_le_compat_r; lra. }
  lra.
Qed.

Lemma v_pot_closed_increasing_in_height :
  v_pot_closed diameter_base diameter_top h1
  < v_pot_closed diameter_base diameter_top h2.
Proof.
  destruct taller_denominators as [Hw _].
  pose proof h_small_closed_increasing as Hs.
  pose proof PI_RGT_0 as Hpi.
  rewrite !v_pot_closed_split. cbv zeta. fold w.
  set (s1 := h_small_closed diameter_base diameter_top h1) in *.
  set (s2 := h_small_closed diameter_base diameter_top h2) in *.
  assert (HR : 0 < diameter_top / 2) by lra.
  assert (HR2 : 0 < (diameter_top / 2) ^ 2) by (simpl; nra).
  assert (Hk : 0 < w * (diameter_top / 2 + diameter_base / 2))
    by (apply Rmult_lt_0_compat; lra).
  apply Rmult_lt_compat_l; [lra |].
  apply Rplus_lt_compat.
  - apply Rmult_lt_compat_l; assumption.
  - apply Rmult_lt_compat_l; assumption.
Qed.

Lemma v_pot_taller_values :
  v_pot ty diameter_base diameter_top h1
  = Return (v_pot_closed diameter_base diameter_top h1)
  /\ v_pot ty diameter_base diameter_top h2
     = Return (v_pot_closed diameter_base diameter_top h2).
Proof.
  destruct taller_denominators as [Hw HD].
  split; apply v_pot_value; try lra; fold w; intros E; rewrite E in HD; nra.
Qed.
End TallerPot.

(** X8.  For fixed diameters [0 < diameter_base < diameter_top], the
    number [v_pot] returns grows strictly with the height as long as the
    two heights compared lie on the same side of the half width. *)
Theorem v_pot_increasing_in_height (ty : scalar)
    (diameter_base diameter_top h1 h2 : R) :
  0 < diameter_base -> diameter_base < diameter_top ->
  0 < h1 -> h1 < h2 ->
  let w := half_width diameter_base diameter_top in
  h2 < w \/ w < h1 ->
  exists v1 v2 : R,
    v_pot ty diameter_base diameter_top h1 = Return v1
    /\ v_pot ty diameter_base diameter_top h2 = Return v2
    /\ v1 < v2.
Proof.
  intros Hb Hd H1 H12 w Hside.
  exists (v_pot_closed diameter_base diameter_top h1),
         (v_pot_closed diameter_base diameter_top h2).
  destruct (v_pot_taller_values ty diameter_base diameter_top h1 h2)
    as [E1 E2]; try assumption.
  split; [exact E1 |]. split; [exact E2 |].
  now apply v_pot_closed_increasing_in_height.
Qed.

Lemma v_pot_increasing_in_height_witness :
  0 < 11 /\ 11 < 19 /\ 0 < 18 /\ 18 < 20
  /\ (20 < half_width 11 19 \/ half_width 11 19 < 18)
  /\ exists v1 v2 : R,
       v_pot PyFloat 11 19 18 = Return v1 /\ v_pot PyFloat 11 19 20 = Return v2 /\ v1 < v2.
Proof.
  assert (H1 : 0 < 11) by lra.
  assert (H2 : 11 < 19) by lra.
  assert (H3 : 0 < 18) by lra.
  assert (H4 : 18 < 20) by lra.
  assert (H5 : 20 < half_width 11 19 \/ half_width 11 19 < 18)
    by (right; unfold half_width; lra).
  repeat (split; [assumption |]).
  exact (v_pot_increasing_in_height PyFloat 11 19 18 20 H1 H2 H3 H4 H5).
Defined.

(** ** Arguments in the other order *)

(** X9.  [compute_angles] takes the top diameter first and [v_pot] the
    base diameter first.  Passing the two diameters of [compute_angles] in
    the other order negates [beta] and replaces [alpha] by [pi - alpha];
    negating the height has the same effect. *)
Theorem compute_angles_swapped (ty : scalar) (diameter_top diameter_base height : R) :
  diameter_top <> diameter_base ->
  exists alpha beta : R,
    compute_angles ty diameter_top diameter_base height = Return (alpha, beta)
    /\ compute_angles ty diameter_base diameter_top height
       = Return (PI - alpha, - beta)
    /\ compute_angles ty diameter_top diameter_base (- height)
       = Return (PI - alpha, - beta).
Proof.
  intros Hd.
  assert (Hd' : diameter_base <> diameter_top) by (intros E; now apply Hd).
  pose proof (half_width_nonzero _ _ Hd) as Hw.
  set (t := height / ((diameter_top - diameter_base) / 2)).
  exists (PI / 2 - 2 * atan t), (atan t).
  split; [now apply compute_angles_defined |].
  assert (E1 : height / ((diameter_base - diameter_top) / 2) = - t).
  { unfold t. field. split; intros E; [apply Hd | apply Hd]; lra. }
  assert (E2 : - height / ((diameter_top - diameter_base) / 2) = - t).
  { unfold t. field. intros E; apply Hd; lra. }
  split.
  - rewrite compute_angles_defined by assumption.
    rewrite E1, atan_opp. f_equal. f_equal. lra.
  - rewrite compute_angles_defined by assumption.
    rewrite E2, atan_opp. f_equal. f_equal. lra.
Qed.

Lemma compute_angles_swapped_witness :
  19 <> 11
  /\ exists alpha beta : R,
       compute_angles PyFloat 19 11 18 = Return (alpha, beta)
       /\ compute_angles PyFloat 11 19 18 = Return (PI - alpha, - beta)
       /\ compute_angles PyFloat 19 11 (- 18) = Return (PI - alpha, - beta).
Proof.
  assert (H1 : 19 <> 11) by lra.
  split; [exact H1 |].
  exact (compute_angles_swapped PyFloat 19 11 18 H1).
Defined.

(** ** Heights close to the half width *)

Lemma v_pot_closed_times_gap (diameter_base diameter_top height : R) :
  let w := half_width diameter_base diameter_top in
  w * w <> height * height ->
  v_pot_closed diameter_base diameter_top height * (w * w - height * height)
  = PI / 3 * ((diameter_top / 2) ^ 2 * height) * (w * w - height * height)
    + PI / 3 * (2 * (diameter_base / 2) * (w * w)
                * (diameter_top / 2 + diameter_base / 2)) * height.
Proof.
  intros w Hsq.
  rewrite v_pot_closed_split. cbv zeta. fold w.
  pose proof (h_small_closed_times diameter_base diameter_top height Hsq) as E.
  cbv zeta in E. fold w in E.
  set (s := h_small_closed diameter_base diameter_top height) in *.
  replace (PI / 3 * ((diameter_top / 2) ^ 2 * height
                     + w * (diameter_top / 2 + diameter_base / 2) * s)
           * (w * w - height * height))
    with (PI / 3 * ((diameter_top / 2) ^ 2 * height) * (w * w - height * height)
          + PI / 3 * (w * (diameter_top / 2 + diameter_base / 2))
            * (s * (w * w - height * height))) by ring.
  rewrite E. ring.
Qed.

Section Pole.
Variable ty : scalar.
Variables diameter_base diameter_top bound delta : R.
Let r := diameter_base / 2.
Let R' := diameter_top / 2.
Let w := half_width diameter_base diameter_top.
Let P := PI / 3 * (2 * r * (w * w) * (R' + r)).
Let B := PI / 3 * R' ^ 2.
Hypothesis Hbase : 0 < diameter_base.
Hypothesis Hwide : diameter_base < diameter_top.
Hypothesis Hdelta : 0 < delta.

Lemma pole_constants : 0 < r /\ 0 < w /\ 0 < R' /\ 0 < P /\ 0 < B.
Proof.
  pose proof PI_RGT_0 as Hpi.
  assert (Hr : 0 < r) by (unfold r; lra).
  assert (Hw : 0 < w) by (unfold w, half_width; lra).
  assert (HR : 0 < R') by (unfold R'; lra).
  repeat split; try assumption.
  - unfold P. apply Rmult_lt_0_compat; [lra |].
    apply Rmult_lt_0_compat; [| lra].
    apply Rmult_lt_0_compat; [lra |].
    now apply Rmult_lt_0_compat.
  - unfold B. apply Rmult_lt_0_compat; [lra |].
    simpl. rewrite Rmult_1_r. now apply Rmult_lt_0_compat.
Qed.

Lemma pole_value (height : R) :
  0 < height -> w * w <> height * height ->
  v_pot ty diameter_base diameter_top height
  = Return (v_pot_closed diameter_base diameter_top height)
  /\ v_pot_closed diameter_base diameter_top height * (w * w - height * height)
     = B * height * (w * w - height * height) + P * height.
Proof.
  intros Hh Hsq. split.
  - apply v_pot_value; try lra. exact Hsq.
  - pose proof (v_pot_closed_times_gap diameter_base diameter_top height Hsq) as E.
    cbv zeta in E. fold w in E. fold r in E. fold R' in E.
    rewrite E. unfold B, P. ring.
Qed.

Lemma pole_from_below :
  exists height : R,
    0 < height /\ w - delta < height < w
    /\ exists v : R,
         v_pot ty diameter_base diameter_top height = Return v /\ bound < v.
Proof.
  destruct pole_constants as [Hr [Hw [HR [HP HB]]]].
  set (M := Rabs bound + 1).
  assert (HM : bound < M) by (unfold M; pose proof (Rle_abs bound); lra).
  assert (HM0 : 0 < M) by (unfold M; pose proof (Rabs_pos bound); lra).
  set (e := Rmin (Rmin (w / 2) (delta / 2)) (P / (4 * M))).
  assert (He0 : 0 < e).
  { unfold e. repeat apply Rmin_glb_lt; try lra.
    apply Rdiv_lt_0_compat; lra. }
  assert (He1 : e <= w / 2).
  { unfold e. eapply Rle_trans; [apply Rmin_l | apply Rmin_l]. }
  assert (He2 : e <= delta / 2).
  { unfold e. eapply Rle_trans; [apply Rmin_l | apply Rmin_r]. }
  assert (He3 : 4 * M * e <= P).
  { assert (H : e <= P / (4 * M)) by (unfold e; apply Rmin_r).
    apply (Rmult_le_compat_l (4 * M)) in H; [| lra].
    replace (4 * M * (P / (4 * M))) with P in H by (field; lra).
    exact H. }
  set (h := w - e).
  assert (Hh : w / 2 <= h < w) by (unfold h; lra).
  assert (HD : w * w - h * h = e * (2 * w - e)) by (unfold h; ring).
  assert (HD0 : 0 < w * w - h * h).
  { rewrite HD. apply Rmult_lt_0_compat; lra. }
  assert (HD1 : w * w - h * h < 2 * w * e).
  { rewrite HD. assert (0 < e * e) by now apply Rmult_lt_0_compat. lra. }
  assert (Hsq : w * w <> h * h) by lra.
  destruct (pole_value h) as [Hv Ht]; [lra | exact Hsq |].
  exists h. split; [lra |]. split; [unfold h; lra |].
  exists (v_pot_closed diameter_base diameter_top h). split; [exact Hv |].
  set (v := v_pot_closed diameter_base diameter_top h) in *.
  set (D := w * w - h * h) in *.
  apply Rlt_trans with M; [exact HM |].
  apply Rnot_le_lt. intros Hle.
  assert (H1 : v * D <= M * D) by (apply Rmult_le_compat_r; lra).
  assert (H2 : M * D < M * (2 * w * e)) by (apply Rmult_lt_compat_l; lra).
  assert (H3 : M * (2 * w * e) <= P * (w / 2)).
  { replace (M * (2 * w * e)) with (4 * M * e * (w / 2)) by field.
    apply Rmult_le_compat_r; lra. }
  assert (H4 : P * (w / 2) <= P * h) by (apply Rmult_le_compat_l; lra).
  assert (H5 : 0 < B * h * D).
  { apply Rmult_lt_0_compat; [apply Rmult_lt_0_compat |]; lra. }
  lra.
Qed.

Lemma pole_from_above :
  exists height : R,
    w < height < w + delta
    /\ exists v : R,
         v_pot ty diameter_base diameter_top height = Return v /\ v < bound.
Proof.
  destruct pole_constants as [Hr [Hw [HR [HP HB]]]].
  set (M := Rabs bound + 1).
  assert (HM : - M < bound).
  { unfold M. pose proof (Rle_abs (- bound)) as H. rewrite Rabs_Ropp in H. lra. }
  assert (HM0 : 0 < M) by (unfold M; pose proof (Rabs_pos bound); lra).
  set (Q := 3 * w * (2 * w * B + M)).
  assert (HQ : 0 < Q).
  { unfold Q. apply Rmult_lt_0_compat; [lra |].
    assert (0 < 2 * w * B) by (apply Rmult_lt_0_compat; lra). lra. }
  set (e := Rmin (Rmin w (delta / 2)) (P * w / (2 * Q))).
  assert (HPw : 0 < P * w) by now apply Rmult_lt_0_compat.
  assert (He0 : 0 < e).
  { unfold e. repeat apply Rmin_glb_lt; try lra.
    apply Rdiv_lt_0_compat; lra. }
  assert (He1 : e <= w).
  { unfold e. eapply Rle_trans; [apply Rmin_l | apply Rmin_l]. }
  assert (He2 : e <= delta / 2).
  { unfold e. eapply Rle_trans; [apply Rmin_l | apply Rmin_r]. }
  assert (He3 : 2 * Q * e <= P * w).
  { assert (H : e <= P * w / (2 * Q)) by (unfold e; apply Rmin_r).
    apply (Rmult_le_compat_l (2 * Q)) in H; [| lra].
    replace (2 * Q * (P * w / (2 * Q))) with (P * w) in H by (field; lra).
    exact H. }
  set (h := w + e).
  assert (Hh : w < h <= 2 * w) by (unfold h; lra).
  set (G := h * h - w * w).
  assert (HG : G = e * (2 * w + e)) by (unfold G, h; ring).
  assert (HG0 : 0 < G).
  { rewrite HG. apply Rmult_lt_0_compat; lra. }
  assert (HG1 : G <= 3 * w * e).
  { rewrite HG. replace (3 * w * e) with (e * (3 * w)) by ring.
    apply Rmult_le_compat_l; lra. }
  assert (Hsq : w * w <> h * h) by (unfold G in HG0; lra).
  destruct (pole_value h) as [Hv Ht]; [lra | exact Hsq |].
  exists h. split; [unfold h; lra |].
  exists (v_pot_closed diameter_base diameter_top h). split; [exact Hv |].
  set (v := v_pot_closed diameter_base diameter_top h) in *.
  replace (w * w - h * h) with (- G) in Ht by (unfold G; ring).
  apply Rlt_trans with (- M); [| exact HM].
  apply Rnot_le_lt. intros Hle.
  assert (H1 : v * G = B * h * G - P * h) by lra.
  assert (H2 : - M * G <= v * G) by (apply Rmult_le_compat_r; lra).
  assert (H3 : B * h * G <= B * (2 * w) * (3 * w * e)).
  { apply Rmult_le_compat; try lra.
    - apply Rmult_le_pos; lra.
    - apply Rmult_le_compat_l; lra. }
  assert (H4 : M * G <= M * (3 * w * e)) by (apply Rmult_le_compat_l; lra).
  assert (H5 : P * w < P * h) by (apply Rmult_lt_compat_l; lra).
  assert (H6 : B * (2 * w) * (3 * w * e) + M * (3 * w * e) = Q * e)
    by (unfold Q; ring).
  assert (H7 : 0 < Q * e) by now apply Rmult_lt_0_compat.
  lra.
Qed.
End Pole.

(** X10.  For fixed diameters [0 < diameter_base < diameter_top] the
    result of [v_pot] is unbounded around the height equal to the half
    width [w]: within any distance of [w] there is a height below it for
    which the returned number exceeds a given bound, and a height above it
    for which the returned number is below that bound. *)
Theorem v_pot_unbounded_near_half_width (ty : scalar)
    (diameter_base diameter_top bound delta : R) :
  0 < diameter_base -> diameter_base < diameter_top -> 0 < delta ->
  let w := half_width diameter_base diameter_top in
  (exists height : R,
      0 < height /\ w - delta < height < w
      /\ exists v : R,
           v_pot ty diameter_base diameter_top height = Return v /\ bound < v)
  /\ (exists height : R,
         w < height < w + delta
         /\ exists v : R,
              v_pot ty diameter_base diameter_top height = Return v /\ v < bound).
Proof.
  intros Hb Hd Hdelta w. split.
  - now apply pole_from_below.
  - now apply pole_from_above.
Qed.

Lemma v_pot_unbounded_near_half_width_witness :
  0 < 2 /\ 2 < 4 /\ 0 < 1 / 10
  /\ (exists height : R,
         0 < height /\ half_width 2 4 - 1 / 10 < height < half_width 2 4
         /\ exists v : R, v_pot PyFloat 2 4 height = Return v /\ 1000 < v)
  /\ (exists height : R,
         half_width 2 4 < height < half_width 2 4 + 1 / 10
         /\ exists v : R, v_pot PyFloat 2 4 height = Return v /\ v < 1000).
Proof.
  assert (H1 : 0 < 2) by lra.
  assert (H2 : 2 < 4) by lra.
  assert (H3 : 0 < 1 / 10) by lra.
  repeat (split; [assumption |]).
  exact (v_pot_unbounded_near_half_width PyFloat 2 4 1000 (1 / 10) H1 H2 H3).
Defined.

(** ** Tall pots *)

Section Tall.
Variables diameter_base diameter_top height : R.
Let r := diameter_base / 2.
Let R' := diameter_top / 2.
Let w := half_width diameter_base diameter_top.
Let hs := h_small_closed diameter_base diameter_top height.
Hypothesis Hbase : 0 < diameter_base.
Hypothesis Hwide : diameter_base < diameter_top.
Hypothesis Htall : 2 * w <= height.

Lemma tall_facts :
  0 < r /\ 0 < w /\ 0 < height /\ w * w <> height * height.
Proof.
  assert (Hr : 0 < r) by (unfold r; lra).
  assert (Hw : 0 < w) by (unfold w, half_width; lra).
  repeat split; try lra. nra.
Qed.

Lemma tall_small_cone : hs < 0 /\ - hs * height <= 8 * r * w / 3.
Proof.
  destruct tall_facts as [Hr [Hw [Hh Hsq]]].
  pose proof (h_small_closed_times diameter_base diameter_top height Hsq) as E.
  cbv zeta in E. fold w in E. fold r in E. fold hs in E.
  set (G := height * height - w * w).
  assert (HG : 3 * (height * height) / 4 <= G) by (unfold G; nra).
  assert (HG0 : 0 < G) by nra.
  assert (E' : - hs * G = 2 * r * w * height) by (unfold G; lra).
  assert (Hrhs : 0 < 2 * r * w * height).
  { apply Rmult_lt_0_compat; [apply Rmult_lt_0_compat |]; lra. }
  assert (Hneg : 0 < - hs).
  { apply Rnot_le_lt. intros Hle.
    assert (- hs * G <= 0 * G) by (apply Rmult_le_compat_r; lra). lra. }
  split; [lra |].
  assert (H1 : - hs * (3 * (height * height) / 4) <= - hs * G)
    by (apply Rmult_le_compat_l; lra).
  assert (H2 : (- hs * height) * (3 * height / 4) <= (8 * r * w / 3) * (3 * height / 4)).
  { replace (- hs * height * (3 * height / 4))
      with (- hs * (3 * (height * height) / 4)) by field.
    replace (8 * r * w / 3 * (3 * height / 4)) with (2 * r * w * height) by field.
    lra. }
  apply (Rmult_le_reg_r (3 * height / 4)); lra.
Qed.

Lemma tall_gap :
  v_pot_closed diameter_base diameter_top height - v_cone R' height
  = PI / 3 * (w * (R' + r)) * hs.
Proof.
  rewrite v_pot_closed_split. cbv zeta. fold w. fold r. fold R'. fold hs.
  unfold v_cone. field.
Qed.

Lemma tall_gap_bound :
  Rabs (v_pot_closed diameter_base diameter_top height - v_cone R' height)
  * height
  <= PI / 3 * (w * (R' + r)) * (8 * r * w / 3).
Proof.
  destruct tall_facts as [Hr [Hw [Hh Hsq]]].
  destruct tall_small_cone as [Hneg Hbound].
  pose proof PI_RGT_0 as Hpi.
  assert (HR : 0 < R') by (unfold R'; lra).
  assert (Hk : 0 < PI / 3 * (w * (R' + r))).
  { apply Rmult_lt_0_compat; [lra |]. apply Rmult_lt_0_compat; lra. }
  rewrite tall_gap, Rabs_mult.
  rewrite (Rabs_pos_eq (PI / 3 * (w * (R' + r)))) by lra.
  rewrite (Rabs_left hs) by assumption.
  rewrite Rmult_assoc. apply Rmult_le_compat_l; lra.
Qed.
End Tall.

(** X11.  For fixed diameters [0 < diameter_base < diameter_top] and
    growing height the result of [v_pot] comes as close as one likes to
    the volume of the cone with the top radius and the pot's height: the
    base diameter stops counting. *)
Theorem v_pot_tall_like_cone (ty : scalar) (diameter_base diameter_top eps : R) :
  0 < diameter_base -> diameter_base < diameter_top -> 0 < eps ->
  exists height0 : R,
    forall height : R,
      height0 < height ->
      exists v : R,
        v_pot ty diameter_base diameter_top height = Return v
        /\ Rabs (v - v_cone (diameter_top / 2) height) < eps.
Proof.
  intros Hb Hd He.
  set (w := half_width diameter_base diameter_top).
  set (C := PI / 3 * (w * (diameter_top / 2 + diameter_base / 2))
            * (8 * (diameter_base / 2) * w / 3)).
  exists (Rmax (2 * w) (C / eps)).
  intros height Hlarge.
  assert (H2w : 2 * w <= height).
  { apply Rlt_le. eapply Rle_lt_trans; [apply Rmax_l | exact Hlarge]. }
  assert (HCe : C / eps < height).
  { eapply Rle_lt_trans; [apply Rmax_r | exact Hlarge]. }
  destruct (tall_facts diameter_base diameter_top height Hb Hd H2w)
    as [Hr [Hw [Hh Hsq]]].
  exists (v_pot_closed diameter_base diameter_top height). split.
  - apply v_pot_value; first [lra | exact Hsq].
  - pose proof (tall_gap_bound diameter_base diameter_top height Hb Hd H2w)
      as Hgap.
    fold w in Hgap. fold C in Hgap.
    assert (HC : C < eps * height).
    { apply (Rmult_lt_compat_l eps) in HCe; [| assumption].
      replace (eps * (C / eps)) with C in HCe by (field; lra).
      exact HCe. }
    apply (Rmult_lt_reg_r height); [assumption |]. lra.
Qed.

Lemma v_pot_tall_like_cone_witness :
  0 < 11 /\ 11 < 19 /\ 0 < 1
  /\ exists height0 : R,
       forall height : R,
         height0 < height ->
         exists v : R,
           v_pot PyFloat 11 19 height = Return v
           /\ Rabs (v - v_cone (19 / 2) height) < 1.
Proof.
  assert (H1 : 0 < 11) by lra.
  assert (H2 : 11 < 19) by lra.
  assert (H3 : 0 < 1) by lra.
  repeat (split; [assumption |]).
  exact (v_pot_tall_like_cone PyFloat 11 19 1 H1 H2 H3).
Defined.

(** ** Larger cones *)

(** X12.  [v_cone] grows strictly with the height for a ray other than
    zero, and strictly with the ray, among non-negative rays, for a
    positive height; it is zero only for the ray zero or the height
    zero. *)
Theorem v_cone_monotone (ray1 ray2 height1 height2 : R) :
  (ray1 <> 0 -> height1 < height2 -> v_cone ray1 height1 < v_cone ray1 height2)
  /\ (0 <= ray1 -> ray1 < ray2 -> 0 < height1 ->
      v_cone ray1 height1 < v_cone ray2 height1)
  /\ (v_cone ray1 height1 = 0 <-> ray1 = 0 \/ height1 = 0).
Proof.
  pose proof PI_RGT_0 as Hpi.
  unfold v_cone. split; [| split].
  - intros Hr Hh.
    assert (0 < ray1 ^ 2) by (simpl; nra).
    assert (0 < PI * ray1 ^ 2) by now apply Rmult_lt_0_compat.
    assert (PI * ray1 ^ 2 * height1 < PI * ray1 ^ 2 * height2)
      by now apply Rmult_lt_compat_l.
    lra.
  - intros H0 Hr Hh.
    assert (ray1 ^ 2 < ray2 ^ 2) by (simpl; nra).
    assert (PI * ray1 ^ 2 < PI * ray2 ^ 2) by now apply Rmult_lt_compat_l.
    assert (PI * ray1 ^ 2 * height1 < PI * ray2 ^ 2 * height1)
      by now apply Rmult_lt_compat_r.
    lra.
  - split.
    + intros E.
      assert (E' : PI * (ray1 * ray1 * height1) = 0) by (simpl in E; lra).
      apply Rmult_integral in E'. destruct E' as [E' | E']; [lra |].
      apply Rmult_integral in E'. destruct E' as [E' | E']; [| now right].
      apply Rmult_integral in E'. left. now destruct E'.
    + intros [-> | ->]; field.
Qed.

Lemma v_cone_monotone_witness :
  v_cone 2 3 < v_cone 2 4 /\ v_cone 2 3 < v_cone 5 3.
Proof.
  destruct (v_cone_monotone 2 5 3 4) as [Hh [Hr _]].
  split; [apply Hh; lra | apply Hr; lra].
Defined.
